(** * app/main.py: path normalisation, OpenAPI schema builder, health check

    A shallow embedding of [src/app/main.py].  Python [str] values are
    sequences of Unicode code points, dictionaries are insertion-ordered
    association lists, and the code that touches process-wide state
    ([os.environ], [app.openapi_schema], the logger) runs in a small
    state-and-exception monad over an explicit [World]. *)

From Equations Require Import Equations.
From Stdlib Require Import Ascii String.
From Stdlib Require Import List NArith ZArith Arith Bool Lia.
Import ListNotations.

Set Implicit Arguments.

(** ** Python strings *)

Module PyStr.

(** A character is a code point; a [str] is a sequence of them. *)
Definition char := N.
Definition str := list char.

(** A literal of the source, written as a Rocq string. *)
Definition py (s : string) : str := map N_of_ascii (list_ascii_of_string s).

Definition slash : char := 47%N.

Definition char_eqb (a b : char) : bool := N.eqb a b.

Fixpoint str_eqb (a b : str) : bool :=
  match a, b with
  | [], [] => true
  | x :: a', y :: b' => char_eqb x y && str_eqb a' b'
  | _, _ => false
  end.

(** [c in chars] *)
Definition char_in (chars : str) (c : char) : bool := existsb (char_eqb c) chars.

(** [str.isspace] on one character: the code points CPython's
    [_PyUnicode_IsWhitespace] accepts. *)
Definition is_space (c : char) : bool :=
  ((9 <=? c) && (c <=? 13) || (28 <=? c) && (c <=? 32)
   || (c =? 133) || (c =? 160) || (c =? 5760)
   || (8192 <=? c) && (c <=? 8202)
   || (c =? 8232) || (c =? 8233) || (c =? 8239) || (c =? 8287)
   || (c =? 12288))%N.

(** Drop the longest prefix whose characters satisfy [p]. *)
Fixpoint lstrip_by (p : char -> bool) (s : str) : str :=
  match s with
  | c :: t => if p c then lstrip_by p t else s
  | [] => []
  end.

(** Drop the longest suffix whose characters satisfy [p]. *)
Definition rstrip_by (p : char -> bool) (s : str) : str :=
  rev (lstrip_by p (rev s)).

(** [s.strip()] *)
Definition strip (s : str) : str := rstrip_by is_space (lstrip_by is_space s).

(** [s.rstrip(chars)] *)
Definition rstrip (chars : str) (s : str) : str := rstrip_by (char_in chars) s.

(** [s.startswith(prefix)] *)
Fixpoint startswith (prefix s : str) : bool :=
  match prefix, s with
  | [], _ => true
  | x :: p', y :: s' => char_eqb x y && startswith p' s'
  | _ :: _, [] => false
  end.

(** Truth value of a [str]: non-empty. *)
Definition str_truthy (s : str) : bool :=
  match s with [] => false | _ :: _ => true end.

(** [re.sub(c+, repl, s)] for a one-character class [c]: scanning from the
    left, every match of [c+] (greedy, hence the whole run of [c]) is replaced
    by [repl], and the scan resumes after the match; a character that starts
    no match is copied. *)
Equations? re_sub_plus (c : char) (repl : str) (s : str) : str
  by wf (length s) lt :=
  re_sub_plus c repl [] := [];
  re_sub_plus c repl (x :: t) with char_eqb x c => {
    | true := repl ++ re_sub_plus c repl (lstrip_by (fun y => char_eqb y c) t);
    | false := x :: re_sub_plus c repl t }.
Proof.
  simpl. apply Nat.lt_succ_r. clear.
  induction t as [|y t IH]; simpl; [lia|].
  destruct (char_eqb y c); simpl; lia.
Qed.

End PyStr.
Import PyStr.

(** ** NormalizePathMiddleware: the substitution of lines 29-31 *)

(** [normalized_path = re.sub(r'/+', '/', path)] *)
Definition normalize_path (path : str) : str :=
  re_sub_plus slash (py "/") path.

(** No two neighbours of [s] are both ['/']. *)
Fixpoint single_slashes (s : str) : bool :=
  match s with
  | x :: t =>
      match t with
      | y :: _ => negb (char_eqb x slash && char_eqb y slash)
      | [] => true
      end && single_slashes t
  | [] => true
  end.

(** ** Python values and dictionaries *)

Module PyDict.

(** JSON-like values; a dictionary keeps its keys in insertion order. *)
Unset Elimination Schemes.
Inductive value : Type :=
| VNone
| VBool (b : bool)
| VInt (n : Z)
| VStr (s : str)
| VList (l : list value)
| VDict (d : list (str * value)).
Set Elimination Schemes.

Definition dict := list (str * value).

(** [d.get(k)] *)
Fixpoint dict_get (k : str) (d : dict) : option value :=
  match d with
  | [] => None
  | (k', v) :: d' => if str_eqb k k' then Some v else dict_get k d'
  end.

(** [d[k] = v]: an existing key keeps its place, a new key goes last. *)
Fixpoint dict_set (k : str) (v : value) (d : dict) : dict :=
  match d with
  | [] => [(k, v)]
  | (k', v') :: d' =>
      if str_eqb k k' then (k', v) :: d' else (k', v') :: dict_set k v d'
  end.

(** [d.setdefault(k, default)]: the value now under [k], and [d] after the
    call. *)
Definition dict_setdefault (k : str) (default : value) (d : dict)
  : value * dict :=
  match dict_get k d with
  | Some v => (v, d)
  | None => (default, dict_set k default d)
  end.

(** Truth value of a dictionary: non-empty. *)
Definition dict_truthy (d : dict) : bool :=
  match d with [] => false | _ :: _ => true end.

End PyDict.
Import PyDict.

(** ** Process state and the monad of effects *)

(** Dictionaries that the program holds by reference live in a heap; a
    reference is an index into it. *)
Definition ref := nat.

Record World : Type := mkWorld {
  environ : list (str * str);        (* os.environ *)
  heap : list dict;                  (* dict objects held by reference *)
  app_openapi_schema : option ref;   (* app.openapi_schema, None at start *)
  get_openapi_calls : nat;           (* number of calls of get_openapi *)
  log : list str                     (* records of logger "acp.main" *)
}.

Inductive exn : Type := AttributeError | TypeError.

Inductive result (A : Type) : Type :=
| Ok (a : A)
| Raise (e : exn).
Arguments Raise {A} e.

(** A computation returns or raises, and leaves a world behind either way. *)
Definition M (A : Type) : Type := World -> result A * World.

Definition ret {A} (a : A) : M A := fun w => (Ok a, w).

Definition bind {A B} (m : M A) (f : A -> M B) : M B :=
  fun w =>
    match m w with
    | (Ok a, w') => f a w'
    | (Raise e, w') => (Raise e, w')
    end.

Declare Scope py_scope.
Delimit Scope py_scope with py.
Notation "x <- m ;; k" := (bind m (fun x => k))
  (at level 61, m at next level, right associativity) : py_scope.
Notation "m ;;; k" := (bind m (fun _ => k))
  (at level 61, right associativity) : py_scope.
Open Scope py_scope.

(** A pure step that may raise, run inside [M]. *)
Definition lift {A} (r : result A) : M A := fun w => (r, w).

(** [os.getenv(key, default)] *)
Fixpoint environ_get (key : str) (env : list (str * str)) : option str :=
  match env with
  | [] => None
  | (k, v) :: env' => if str_eqb key k then Some v else environ_get key env'
  end.

Definition os_getenv (key default : str) : M str :=
  fun w =>
    (Ok match environ_get key (environ w) with
        | Some v => v
        | None => default
        end, w).

(** [logger.info(msg)] *)
Definition logger_info (msg : str) : M unit :=
  fun w =>
    (Ok tt, mkWorld (environ w) (heap w) (app_openapi_schema w)
              (get_openapi_calls w) (log w ++ [msg])).

(** A new dict object: it is placed at the end of the heap. *)
Definition new_dict (d : dict) : M ref :=
  fun w =>
    (Ok (length (heap w)),
     mkWorld (environ w) (heap w ++ [d]) (app_openapi_schema w)
       (get_openapi_calls w) (log w)).

Definition deref (w : World) (r : ref) : option dict := nth_error (heap w) r.

(** [h[r] = d] for a reference [r] of the heap. *)
Fixpoint heap_update (r : ref) (d : dict) (h : list dict) : list dict :=
  match h, r with
  | [], _ => []
  | _ :: h', O => d :: h'
  | x :: h', S r' => x :: heap_update r' d h'
  end.

Definition store (r : ref) (d : dict) : M unit :=
  fun w =>
    (Ok tt, mkWorld (environ w) (heap_update r d (heap w))
              (app_openapi_schema w) (get_openapi_calls w) (log w)).

Definition load (r : ref) : M dict :=
  fun w =>
    match deref w r with
    | Some d => (Ok d, w)
    | None => (Raise AttributeError, w)
    end.

(** Reading and writing the attribute [app.openapi_schema]. *)
Definition read_openapi_schema : M (option ref) :=
  fun w => (Ok (app_openapi_schema w), w).

Definition write_openapi_schema (r : ref) : M unit :=
  fun w =>
    (Ok tt, mkWorld (environ w) (heap w) (Some r)
              (get_openapi_calls w) (log w)).

(** Truth value of [app.openapi_schema]: [None] and the empty dict are
    false. *)
Definition schema_truthy (w : World) (cached : option ref) : bool :=
  match cached with
  | None => false
  | Some r =>
      match deref w r with
      | Some d => dict_truthy d
      | None => false
      end
  end.

(** ** The application *)

(** The metadata given to [FastAPI(...)], lines 19-23. *)
Definition app_title : str := py "ACP-style Merchant API".
Definition app_version : str := py "0.3.0".
Definition app_description : str :=
  py "ACP-like checkout API for GPT Actions demos. Public OpenAPI at /openapi.json".

Definition placeholder_url : str := py "https://replace-me.example.com".

(** The literal of lines 82-87. *)
Definition api_key_auth : value :=
  VDict [ (py "type", VStr (py "apiKey"));
          (py "in", VStr (py "header"));
          (py "name", VStr (py "X-API-Key"));
          (py "description",
           VStr (py "Provide your API key in the X-API-Key header.")) ].

(** The literal of line 89: [[{"ApiKeyAuth": []}]]. *)
Definition global_security : value :=
  VList [ VDict [ (py "ApiKeyAuth", VList []) ] ].

(** [[{"url": url}]] *)
Definition servers_of (url : str) : value :=
  VList [ VDict [ (py "url", VStr url) ] ].

(** Lines 70-89 on the dict [schema] that [get_openapi] returned: the dict
    as the lines leave it, and whether they returned or raised.  The document
    is one object mutated in place; [components] and [security_schemes] are
    objects inside it, so what is stored into them is seen through [schema]:
    each assignment is followed here by storing the changed inner dict back
    under its key.  [setdefault] on a value that is not a dict raises
    AttributeError, item assignment on one TypeError. *)
Definition augment_schema (getenv_value : str) (schema : dict)
  : dict * result unit :=
  let base := strip getenv_value in
  let schema :=
    if str_truthy base && startswith (py "https://") base then
      let base := rstrip (py "/") base in
      dict_set (py "servers") (servers_of base) schema
    else
      dict_set (py "servers") (servers_of placeholder_url) schema in
  let '(components, schema) :=
    dict_setdefault (py "components") (VDict []) schema in
  match components with
  | VDict components =>
      let '(security_schemes, components) :=
        dict_setdefault (py "securitySchemes") (VDict []) components in
      match security_schemes with
      | VDict security_schemes =>
          let security_schemes :=
            dict_set (py "ApiKeyAuth") api_key_auth security_schemes in
          let components :=
            dict_set (py "securitySchemes") (VDict security_schemes)
              components in
          let schema := dict_set (py "components") (VDict components) schema in
          let schema := dict_set (py "security") global_security schema in
          (schema, Ok tt)
      | _ => (schema, Raise TypeError)
      end
  | _ => (schema, Raise AttributeError)
  end.

(** Responses of a route: status code and JSON content. *)
Record Response : Type := mkResponse {
  status_code : Z;
  body : value
}.

(** Modelled from the spec: the status code FastAPI gives the response of a
    route declared with [@app.get(path)] and no [status_code], namely 200
    (section 6, HTTP surface). *)
Definition default_status_code : Z := 200.

(** [@app.get(path)] around a handler that returns JSON content. *)
Definition app_get (endpoint : M value) : M Response :=
  content <- endpoint ;;
  ret (mkResponse default_status_code content).

(** Lines 97-99. *)
Definition healthz : M value :=
  ret (VDict [ (py "status", VStr (py "ok")) ]).

Definition get_healthz : M Response := app_get healthz.

Section Framework.

(** What the framework supplies: the route table of the application and
    [fastapi.openapi.utils.get_openapi], which builds a new dict from the
    metadata and the routes. *)
Variable Route : Type.
Variable app_routes : list Route.
Variable get_openapi : str -> str -> str -> list Route -> dict.

(** The call of lines 62-67: a new dict object. *)
Definition call_get_openapi : M ref :=
  fun w =>
    new_dict (get_openapi app_title app_version app_description app_routes)
      (mkWorld (environ w) (heap w) (app_openapi_schema w)
         (S (get_openapi_calls w)) (log w)).

(** Lines 58-92. *)
Definition custom_openapi : M (option ref) :=
  cached <- read_openapi_schema ;;
  fun w =>
    if schema_truthy w cached then ret cached w
    else
      (schema <- call_get_openapi ;;
       base <- os_getenv (py "PUBLIC_BASE_URL") (py EmptyString) ;;
       d <- load schema ;;
       let '(d', outcome) := augment_schema base d in
       store schema d' ;;;
       lift outcome ;;;
       write_openapi_schema schema ;;;
       read_openapi_schema) w.

(** The ASGI [receive] callable of a request, and starlette's
    [request.url.path], which the framework computes from the request. *)
Variable Receive : Type.

Record Request : Type := mkRequest {
  scope : dict;
  receive : Receive
}.

Variable url_path : Request -> str.

(** Lines 27-41, for a downstream handler [call_next] with responses in
    [R]. *)
Definition dispatch (R : Type) (request : Request)
    (call_next : Request -> M R) : M R :=
  let path := url_path request in
  let normalized_path := normalize_path path in
  request <-
    (if negb (str_eqb normalized_path path) then
       logger_info (py "Normalizing path: " ++ path ++ py " -> "
                      ++ normalized_path) ;;;
       let scope := scope request in
       let scope := dict_set (py "path") (VStr normalized_path) scope in
       ret (mkRequest scope (receive request))
     else ret request) ;;
  response <- call_next request ;;
  ret response.

End Framework.

(** ** Reading a generated document *)

(** [v[k1][k2]...] through nested dicts. *)
Fixpoint lookup_path (ks : list str) (v : value) : option value :=
  match ks with
  | [] => Some v
  | k :: ks' =>
      match v with
      | VDict d =>
          match dict_get k d with
          | Some v' => lookup_path ks' v'
          | None => None
          end
      | _ => None
      end
  end.

(** [d["servers"][0]["url"]] *)
Definition servers0_url (d : dict) : option value :=
  match dict_get (py "servers") d with
  | Some (VList (VDict s :: _)) => dict_get (py "url") s
  | _ => None
  end.

(** The document a call of the schema builder returned: the dict its result
    refers to, in the world the call left. *)
Definition returned_schema (out : result (option ref) * World) : option dict :=
  match out with
  | (Ok (Some r), w) => deref w r
  | _ => None
  end.

Definition returned_servers0_url (out : result (option ref) * World)
  : option value :=
  match returned_schema out with
  | Some d => servers0_url d
  | None => None
  end.

(** The shape [get_openapi] gives its result: [components], when present, is
    a dict, and so is [securitySchemes] inside it. *)
Definition openapi_shape (d : dict) : bool :=
  match dict_get (py "components") d with
  | None => true
  | Some (VDict c) =>
      match dict_get (py "securitySchemes") c with
      | None | Some (VDict _) => true
      | Some _ => false
      end
  | Some _ => false
  end.

(** The URL the lines 70-77 choose for a value of the variable. *)
Definition server_url (getenv_value : str) : str :=
  let base := strip getenv_value in
  if str_truthy base && startswith (py "https://") base
  then rstrip (py "/") base
  else placeholder_url.

(** What [os.getenv] gives for PUBLIC_BASE_URL in a world, the empty string
    when the variable is unset. *)
Definition getenv_base_url (w : World) : str :=
  match environ_get (py "PUBLIC_BASE_URL") (environ w) with
  | Some v => v
  | None => py EmptyString
  end.

(** The first computation happens in a world whose cache is not truthy. *)
Definition first_computation (w : World) : bool :=
  negb (schema_truthy w (app_openapi_schema w)).

(** A stand-in for the framework, to run the program on examples: no routes,
    and the document skeleton [get_openapi] builds from the metadata. *)
Definition sample_get_openapi (title version description : str)
    (routes : list unit) : dict :=
  [ (py "openapi", VStr (py "3.1.0"));
    (py "info", VDict [ (py "title", VStr title);
                        (py "description", VStr description);
                        (py "version", VStr version) ]);
    (py "paths", VDict []) ].

(** A process at start: the given environment, nothing cached. *)
Definition start_world (env : list (str * str)) : World :=
  mkWorld env [] None 0 [].

Definition env_base_url (v : str) : list (str * str) :=
  [ (py "PATH", py "/usr/bin"); (py "PUBLIC_BASE_URL", v) ].

(** A request as the server hands it over, with [url.path] read from the
    scope. *)
Definition sample_url_path (request : Request unit) : str :=
  match dict_get (py "path") (scope request) with
  | Some (VStr p) => p
  | _ => []
  end.

Definition sample_request (path : str) : Request unit :=
  mkRequest [ (py "type", VStr (py "http"));
              (py "method", VStr (py "GET"));
              (py "path", VStr path);
              (py "query_string", VStr []) ] tt.

(** ** Vocabulary for the further properties *)

(** One pass over a string that drops every ['/'] which another ['/']
    follows, and so keeps the last ['/'] of each run. *)
Fixpoint drop_followed_slashes (s : str) : str :=
  match s with
  | x :: t =>
      match t with
      | y :: _ =>
          if char_eqb x slash && char_eqb y slash
          then drop_followed_slashes t
          else x :: drop_followed_slashes t
      | [] => [x]
      end
  | [] => []
  end.

Definition not_slash (c : char) : bool := negb (char_eqb c slash).


(** A document as [get_openapi] builds it for an application with models
    and a security dependency: [components] is there already. *)
Definition sample_get_openapi_components (title version description : str)
    (routes : list unit) : dict :=
  [ (py "openapi", VStr (py "3.1.0"));
    (py "info", VDict [ (py "title", VStr title);
                        (py "version", VStr version) ]);
    (py "paths", VDict [ (py "/products", VDict []) ]);
    (py "components",
     VDict [ (py "schemas", VDict [ (py "Product", VDict []) ]);
             (py "securitySchemes",
              VDict [ (py "OAuth2", VDict [ (py "type", VStr (py "oauth2")) ]) ])
           ]) ].

(** Documents outside the framework's shape. *)
Definition sample_get_openapi_bad_components (title version description : str)
    (routes : list unit) : dict :=
  [ (py "openapi", VStr (py "3.1.0")); (py "components", VList []) ].

Definition sample_get_openapi_bad_schemes (title version description : str)
    (routes : list unit) : dict :=
  [ (py "openapi", VStr (py "3.1.0"));
    (py "components", VDict [ (py "securitySchemes", VNone) ]) ].

(** * Properties *)

Unset Implicit Arguments.

(** ** Strings *)

Lemma char_eqb_eq a b : char_eqb a b = true <-> a = b.
Proof. unfold char_eqb. apply N.eqb_eq. Qed.

Lemma char_eqb_refl a : char_eqb a a = true.
Proof. apply char_eqb_eq. reflexivity. Qed.

Lemma str_eqb_eq a b : str_eqb a b = true <-> a = b.
Proof.
  revert b. induction a as [|x a IH]; intros [|y b]; simpl;
    try (split; [discriminate | discriminate]); try tauto.
  rewrite andb_true_iff, char_eqb_eq, IH.
  split; [intros [-> ->]; reflexivity | intros H; inversion H; auto].
Qed.

Lemma str_eqb_refl a : str_eqb a a = true.
Proof. apply str_eqb_eq. reflexivity. Qed.

Lemma str_eqb_neq a b : str_eqb a b = false <-> a <> b.
Proof.
  rewrite <- str_eqb_eq. destruct (str_eqb a b); split; congruence.
Qed.

Lemma length_lstrip_by p s : length (lstrip_by p s) <= length s.
Proof.
  induction s as [|c t IH]; simpl; [lia|].
  destruct (p c); simpl; lia.
Qed.

(** What is left after stripping starts with a character outside [p]. *)
Lemma lstrip_by_head p s x t : lstrip_by p s = x :: t -> p x = false.
Proof.
  induction s as [|c s IH]; simpl; [discriminate|].
  destruct (p c) eqn:E; [exact IH|].
  intros H. inversion H. subst. exact E.
Qed.

Lemma lstrip_by_id p x t : p x = false -> lstrip_by p (x :: t) = x :: t.
Proof. intros H. simpl. rewrite H. reflexivity. Qed.

Lemma lstrip_by_repeat p c k s :
  p c = true -> lstrip_by p (repeat c k ++ s) = lstrip_by p s.
Proof.
  intros H. induction k as [|k IH]; simpl; [reflexivity|].
  rewrite H. exact IH.
Qed.

Lemma rev_repeat_char (c : char) k : rev (repeat c k) = repeat c k.
Proof.
  induction k as [|k IH]; simpl; [reflexivity|].
  rewrite IH. clear IH.
  induction k as [|k IH]; simpl; [reflexivity|].
  rewrite IH. reflexivity.
Qed.

(** ** The substitution [re.sub(c+, repl, s)] *)

(** The two defining equations on a non-empty string, as one rewrite rule. *)
Lemma re_sub_plus_cons c repl x t :
  re_sub_plus c repl (x :: t) =
  if char_eqb x c
  then repl ++ re_sub_plus c repl (lstrip_by (fun y => char_eqb y c) t)
  else x :: re_sub_plus c repl t.
Proof.
  simp re_sub_plus. destruct (char_eqb x c); reflexivity.
Qed.

Lemma normalize_path_nil : normalize_path [] = [].
Proof. reflexivity. Qed.

Lemma normalize_path_slash t :
  normalize_path (slash :: t) =
  slash :: normalize_path (lstrip_by (fun y => char_eqb y slash) t).
Proof.
  unfold normalize_path. rewrite re_sub_plus_cons, char_eqb_refl.
  reflexivity.
Qed.

Lemma normalize_path_other x t :
  char_eqb x slash = false ->
  normalize_path (x :: t) = x :: normalize_path t.
Proof.
  intros H. unfold normalize_path. rewrite re_sub_plus_cons, H.
  reflexivity.
Qed.

(** Induction on a string through all shorter strings, the order in which the
    substitution proceeds. *)
Lemma str_length_ind (P : str -> Prop) :
  (forall s, (forall t, length t < length s -> P t) -> P s) ->
  forall s, P s.
Proof.
  intros H s.
  assert (G : forall n t, length t < n -> P t).
  { induction n as [|n IH]; intros t Ht; [lia|].
    apply H. intros u Hu. apply IH. lia. }
  apply (G (S (length s))). lia.
Qed.

Lemma normalize_path_single_slashes p :
  single_slashes (normalize_path p) = true.
Proof.
  induction p as [p IH] using str_length_ind.
  destruct p as [|x t]; [reflexivity|].
  destruct (char_eqb x slash) eqn:E.
  - apply char_eqb_eq in E. subst x. rewrite normalize_path_slash.
    set (r := lstrip_by (fun y => char_eqb y slash) t).
    assert (IHr : single_slashes (normalize_path r) = true).
    { apply IH. pose proof (length_lstrip_by (fun y => char_eqb y slash) t).
      simpl. fold r in H. lia. }
    destruct r as [|y r'] eqn:Er; [reflexivity|].
    assert (Hy : char_eqb y slash = false).
    { unfold r in Er. exact (lstrip_by_head _ _ _ _ Er). }
    rewrite (normalize_path_other _ _ Hy) in *.
    simpl. simpl in IHr. rewrite IHr, Hy. reflexivity.
  - rewrite (normalize_path_other _ _ E).
    assert (IHt : single_slashes (normalize_path t) = true).
    { apply IH. simpl. lia. }
    simpl. rewrite IHt, E. simpl.
    destruct (normalize_path t); reflexivity.
Qed.

Lemma single_slashes_fixed s :
  single_slashes s = true -> normalize_path s = s.
Proof.
  induction s as [|x t IH]; [reflexivity|].
  simpl. intros H. apply andb_true_iff in H. destruct H as [H1 H2].
  destruct (char_eqb x slash) eqn:E.
  - apply char_eqb_eq in E. subst x. rewrite normalize_path_slash.
    destruct t as [|y t']; [reflexivity|].
    try rewrite char_eqb_refl in H1. simpl in H1.
    apply negb_true_iff in H1.
    rewrite (lstrip_by_id (fun y => char_eqb y slash) _ _ H1).
    rewrite (IH H2). reflexivity.
  - rewrite (normalize_path_other _ _ E), (IH H2). reflexivity.
Qed.

Lemma single_slashes_no_pair a b :
  single_slashes (a ++ slash :: slash :: b) = false.
Proof.
  induction a as [|x a IH]; [reflexivity|].
  simpl app. cbn [single_slashes]. rewrite IH. apply andb_false_r.
Qed.

Lemma normalize_path_length p : length (normalize_path p) <= length p.
Proof.
  induction p as [p IH] using str_length_ind.
  destruct p as [|x t]; [rewrite normalize_path_nil; simpl; lia|].
  destruct (char_eqb x slash) eqn:E.
  - apply char_eqb_eq in E. subst x. rewrite normalize_path_slash.
    pose proof (length_lstrip_by (fun y => char_eqb y slash) t) as L.
    assert (G : length (normalize_path
                          (lstrip_by (fun y => char_eqb y slash) t))
                <= length (lstrip_by (fun y => char_eqb y slash) t)).
    { apply IH. simpl. lia. }
    simpl. lia.
  - rewrite (normalize_path_other _ _ E).
    assert (G : length (normalize_path t) <= length t).
    { apply IH. simpl. lia. }
    simpl. lia.
Qed.

(** C1. Path normalisation is idempotent: for every path P, normalising the
    normalised path gives the normalised path,
    normalize(normalize(P)) = normalize(P). *)
Theorem normalize_path_idempotent :
  forall p : str, normalize_path (normalize_path p) = normalize_path p.
Proof.
  intros p. apply single_slashes_fixed, normalize_path_single_slashes.
Qed.

(** C2. For every path P, the normalised path has no two consecutive ['/']
    characters: it cannot be split as [a ++ "//" ++ b]. *)
Theorem normalize_path_no_consecutive_slashes :
  forall p a b : str, normalize_path p <> a ++ slash :: slash :: b.
Proof.
  intros p a b H.
  pose proof (normalize_path_single_slashes p) as S.
  rewrite H, single_slashes_no_pair in S. discriminate.
Qed.

(** ** Dictionaries *)

Lemma dict_get_set_same k v d : dict_get k (dict_set k v d) = Some v.
Proof.
  induction d as [|[k' v'] d IH]; simpl.
  - rewrite str_eqb_refl. reflexivity.
  - destruct (str_eqb k k') eqn:E; simpl; rewrite E; auto.
Qed.

Lemma dict_get_set_other k k' v d :
  str_eqb k' k = false -> dict_get k' (dict_set k v d) = dict_get k' d.
Proof.
  intros N. induction d as [|[k0 v0] d IH]; simpl.
  - rewrite N. reflexivity.
  - destruct (str_eqb k k0) eqn:E; simpl.
    + apply str_eqb_eq in E. subst k0. rewrite N. reflexivity.
    + rewrite IH. reflexivity.
Qed.

Lemma dict_set_truthy k v d : dict_truthy (dict_set k v d) = true.
Proof.
  destruct d as [|[k' v'] d]; simpl; [reflexivity|].
  destruct (str_eqb k k'); reflexivity.
Qed.

Ltac dict_simpl :=
  repeat (rewrite dict_get_set_same
          || rewrite dict_get_set_other by reflexivity).

(** ** The schema builder *)

(** Both branches of line 71 store a one-element [servers] list. *)
Lemma augment_schema_servers v d :
  (if str_truthy (strip v) && startswith (py "https://") (strip v)
   then dict_set (py "servers") (servers_of (rstrip (py "/") (strip v))) d
   else dict_set (py "servers") (servers_of placeholder_url) d)
  = dict_set (py "servers") (servers_of (server_url v)) d.
Proof.
  unfold server_url.
  destruct (str_truthy (strip v) && startswith (py "https://") (strip v));
    reflexivity.
Qed.

(** On a document of the framework's shape the lines 70-89 return, and leave
    the server, the security scheme and the global requirement in it. *)
Lemma augment_schema_ok v d :
  openapi_shape d = true ->
  exists d',
    augment_schema v d = (d', Ok tt)
    /\ servers0_url d' = Some (VStr (server_url v))
    /\ lookup_path [py "components"; py "securitySchemes"; py "ApiKeyAuth"]
         (VDict d') = Some api_key_auth
    /\ dict_get (py "security") d' = Some global_security.
Proof.
  unfold openapi_shape, augment_schema. intros Sh.
  rewrite augment_schema_servers.
  unfold dict_setdefault, servers0_url, lookup_path.
  rewrite (dict_get_set_other (py "servers") (py "components"))
    by reflexivity.
  destruct (dict_get (py "components") d) as [[| | | | |c]|] eqn:Ec;
    try discriminate.
  - destruct (dict_get (py "securitySchemes") c) as [[| | | | |s]|] eqn:Es;
      try discriminate.
    + eexists. split; [reflexivity|]. dict_simpl. auto.
    + eexists. split; [reflexivity|]. dict_simpl. auto.
  - eexists. split; [reflexivity|]. dict_simpl. simpl. dict_simpl. auto.
Qed.

(** The shape is exactly what the lines 70-89 need in order to return. *)
Lemma augment_schema_returns_iff v d :
  snd (augment_schema v d) = Ok tt <-> openapi_shape d = true.
Proof.
  split.
  - unfold openapi_shape, augment_schema.
    rewrite augment_schema_servers. unfold dict_setdefault.
    rewrite (dict_get_set_other (py "servers") (py "components"))
      by reflexivity.
    destruct (dict_get (py "components") d) as [[| | | | |c]|];
      simpl; try discriminate; [|reflexivity].
    destruct (dict_get (py "securitySchemes") c) as [[| | | | |s]|];
      simpl; try discriminate; reflexivity.
  - intros Sh. destruct (augment_schema_ok v d Sh) as (d' & A & _).
    rewrite A. reflexivity.
Qed.

(** Whenever the lines 70-89 return, the document is not empty. *)
Lemma augment_schema_truthy v d d' :
  augment_schema v d = (d', Ok tt) -> dict_truthy d' = true.
Proof.
  unfold augment_schema. rewrite augment_schema_servers.
  destruct (dict_setdefault (py "components") (VDict [])
              (dict_set (py "servers") (servers_of (server_url v)) d))
    as [[| | | | |c] d1]; try discriminate.
  destruct (dict_setdefault (py "securitySchemes") (VDict []) c)
    as [[| | | | |s] c1]; try discriminate.
  intros H. inversion H. apply dict_set_truthy.
Qed.

Lemma nth_error_snoc (h : list dict) d :
  nth_error (h ++ [d]) (length h) = Some d.
Proof. induction h as [|x h IH]; simpl; auto. Qed.

Lemma heap_update_snoc (h : list dict) d d' :
  heap_update (length h) d' (h ++ [d]) = h ++ [d'].
Proof.
  induction h as [|x h IH]; simpl; [reflexivity|]. rewrite IH. reflexivity.
Qed.

Section SchemaBuilder.

Variable Route : Type.
Variable app_routes : list Route.
Variable get_openapi : str -> str -> str -> list Route -> dict.

Let base_schema : dict :=
  get_openapi app_title app_version app_description app_routes.

(** A call that finds a truthy cache returns it and changes nothing. *)
Lemma custom_openapi_cached w :
  schema_truthy w (app_openapi_schema w) = true ->
  custom_openapi app_routes get_openapi w = (Ok (app_openapi_schema w), w).
Proof.
  intros T. unfold custom_openapi, bind, read_openapi_schema.
  rewrite T. reflexivity.
Qed.

(** A call that finds no truthy cache builds the document in a new object;
    it caches the object only when lines 70-89 return. *)
Lemma custom_openapi_fresh w :
  first_computation w = true ->
  custom_openapi app_routes get_openapi w =
  let r := length (heap w) in
  let '(d', outcome) := augment_schema (getenv_base_url w) base_schema in
  match outcome with
  | Ok _ =>
      (Ok (Some r),
       mkWorld (environ w) (heap w ++ [d']) (Some r)
         (S (get_openapi_calls w)) (log w))
  | Raise e =>
      (Raise e,
       mkWorld (environ w) (heap w ++ [d']) (app_openapi_schema w)
         (S (get_openapi_calls w)) (log w))
  end.
Proof.
  unfold first_computation. intros F. apply negb_true_iff in F.
  unfold custom_openapi, bind at 1, read_openapi_schema.
  rewrite F.
  unfold bind, call_get_openapi, new_dict, os_getenv, load, deref. simpl.
  rewrite nth_error_snoc. fold base_schema.
  change (match environ_get (py "PUBLIC_BASE_URL") (environ w) with
          | Some v => v
          | None => py EmptyString
          end) with (getenv_base_url w).
  destruct (augment_schema (getenv_base_url w) base_schema)
    as [d' [u|e]]; simpl; rewrite heap_update_snoc; reflexivity.
Qed.

(** On a document of the framework's shape the first computation returns a
    reference to the augmented document. *)
Lemma custom_openapi_first w :
  openapi_shape base_schema = true ->
  first_computation w = true ->
  exists d',
    custom_openapi app_routes get_openapi w =
    (Ok (Some (length (heap w))),
     mkWorld (environ w) (heap w ++ [d']) (Some (length (heap w)))
       (S (get_openapi_calls w)) (log w))
    /\ returned_schema (custom_openapi app_routes get_openapi w) = Some d'
    /\ servers0_url d' = Some (VStr (server_url (getenv_base_url w)))
    /\ lookup_path [py "components"; py "securitySchemes"; py "ApiKeyAuth"]
         (VDict d') = Some api_key_auth
    /\ dict_get (py "security") d' = Some global_security.
Proof.
  intros Sh F.
  destruct (augment_schema_ok (getenv_base_url w) base_schema Sh)
    as (d' & A & P1 & P2 & P3).
  exists d'. rewrite (custom_openapi_fresh w F). cbv zeta. rewrite A.
  repeat split; auto.
  unfold returned_schema, deref. simpl. apply nth_error_snoc.
Qed.

End SchemaBuilder.

(** ** Trailing slashes and surrounding whitespace *)

Lemma rstrip_by_repeat p c k s :
  p c = true -> rstrip_by p (s ++ repeat c k) = rstrip_by p s.
Proof.
  intros H. unfold rstrip_by.
  rewrite rev_app_distr, rev_repeat_char, lstrip_by_repeat by exact H.
  reflexivity.
Qed.

Lemma rstrip_by_snoc_id p x t :
  p x = false -> rstrip_by p (t ++ [x]) = t ++ [x].
Proof.
  intros H. unfold rstrip_by. rewrite rev_app_distr. simpl.
  rewrite H. simpl. rewrite rev_involutive. reflexivity.
Qed.

Lemma repeat_snoc (c : char) k : repeat c k ++ [c] = c :: repeat c k.
Proof. induction k as [|k IH]; simpl; [reflexivity|]. rewrite IH. reflexivity. Qed.

(** The bare scheme followed by any number of further slashes has no
    whitespace to strip, passes the prefix check, and loses every slash. *)
Lemma server_url_bare_scheme k :
  server_url (py "https://" ++ repeat slash k) = py "https:".
Proof.
  assert (St : strip (py "https://" ++ repeat slash k)
               = py "https://" ++ repeat slash k).
  { unfold strip.
    change (py "https://" ++ repeat slash k)
      with (104%N :: py "ttps:/" ++ slash :: repeat slash k).
    rewrite lstrip_by_id by reflexivity.
    rewrite <- repeat_snoc.
    change (104%N :: py "ttps:/" ++ repeat slash k ++ [slash])
      with ((104%N :: py "ttps:/") ++ repeat slash k ++ [slash]).
    rewrite app_assoc. apply rstrip_by_snoc_id. reflexivity. }
  unfold server_url. cbv zeta. rewrite St.
  change (str_truthy (py "https://" ++ repeat slash k)) with true.
  change (startswith (py "https://") (py "https://" ++ repeat slash k))
    with true.
  simpl andb. cbv iota. unfold rstrip.
  rewrite rstrip_by_repeat by reflexivity. reflexivity.
Qed.

Lemma server_url_https v :
  str_truthy (strip v) = true ->
  startswith (py "https://") (strip v) = true ->
  server_url v = rstrip (py "/") (strip v).
Proof. intros T S. unfold server_url. cbv zeta. rewrite T, S. reflexivity. Qed.

Lemma server_url_fallback v :
  strip v = [] \/ startswith (py "https://") (strip v) = false ->
  server_url v = placeholder_url.
Proof.
  unfold server_url. cbv zeta. intros [E|E]; rewrite E.
  - reflexivity.
  - rewrite andb_false_r. reflexivity.
Qed.

(** ** The claims on the schema builder *)

(** C3 (amended). On the first schema computation, if the value of
    PUBLIC_BASE_URL with surrounding whitespace removed is non-empty and
    starts with [https://], the generated schema's servers[0].url is that
    whitespace-trimmed value with its trailing ['/'] characters stripped; in
    particular [https://api.example.com/] gives [https://api.example.com]. *)
Theorem servers_url_https_trimmed :
  forall (Route : Type) (app_routes : list Route)
         (get_openapi : str -> str -> str -> list Route -> dict)
         (w : World) (v : str),
    openapi_shape
      (get_openapi app_title app_version app_description app_routes) = true ->
    first_computation w = true ->
    environ_get (py "PUBLIC_BASE_URL") (environ w) = Some v ->
    str_truthy (strip v) = true ->
    startswith (py "https://") (strip v) = true ->
    returned_servers0_url (custom_openapi app_routes get_openapi w)
    = Some (VStr (rstrip (py "/") (strip v)))
    /\ (v = py "https://api.example.com/" ->
        returned_servers0_url (custom_openapi app_routes get_openapi w)
        = Some (VStr (py "https://api.example.com"))).
Proof.
  intros Route app_routes get_openapi w v Sh F E T S.
  destruct (custom_openapi_first Route app_routes get_openapi w Sh F)
    as (d' & _ & Rs & U & _).
  assert (G : returned_servers0_url (custom_openapi app_routes get_openapi w)
              = Some (VStr (rstrip (py "/") (strip v)))).
  { unfold returned_servers0_url. rewrite Rs, U.
    unfold getenv_base_url. rewrite E.
    rewrite (server_url_https v T S). reflexivity. }
  split; [exact G|].
  intros ->. rewrite G. reflexivity.
Qed.

(** C4 (amended). On the first schema computation, if PUBLIC_BASE_URL is
    unset, or its value with surrounding whitespace removed is empty or does
    not start with [https://], the builder returns without raising and the
    generated schema's servers[0].url is the placeholder
    [https://replace-me.example.com]. *)
Theorem servers_url_placeholder :
  forall (Route : Type) (app_routes : list Route)
         (get_openapi : str -> str -> str -> list Route -> dict)
         (w : World),
    openapi_shape
      (get_openapi app_title app_version app_description app_routes) = true ->
    first_computation w = true ->
    (environ_get (py "PUBLIC_BASE_URL") (environ w) = None
     \/ exists v,
          environ_get (py "PUBLIC_BASE_URL") (environ w) = Some v
          /\ (strip v = []
              \/ startswith (py "https://") (strip v) = false)) ->
    exists (r : ref) (w' : World) (d : dict),
      custom_openapi app_routes get_openapi w = (Ok (Some r), w')
      /\ deref w' r = Some d
      /\ servers0_url d = Some (VStr (py "https://replace-me.example.com")).
Proof.
  intros Route app_routes get_openapi w Sh F E.
  destruct (custom_openapi_first Route app_routes get_openapi w Sh F)
    as (d' & C & Rs & U & _).
  eexists. eexists. exists d'. split; [exact C|].
  split; [rewrite C in Rs; exact Rs|].
  rewrite U. f_equal. f_equal.
  unfold getenv_base_url.
  destruct E as [E|(v & E & B)]; rewrite E.
  - reflexivity.
  - apply server_url_fallback. exact B.
Qed.

(** C5. The schema builder is memoised: once a call has returned, the cache
    holds the returned reference to a non-empty document, and every later
    call returns that same reference and leaves the world as it found it:
    the heap, the cache and the count of [get_openapi] calls do not change.
    This holds for any number of calls in a row, and in any later world
    with the same heap and cache. *)
Theorem custom_openapi_memoized :
  forall (Route : Type) (app_routes : list Route)
         (get_openapi : str -> str -> str -> list Route -> dict)
         (w w1 : World) (r : option ref),
    custom_openapi app_routes get_openapi w = (Ok r, w1) ->
    app_openapi_schema w1 = r
    /\ schema_truthy w1 r = true
    /\ (forall n : nat,
          Nat.iter n
            (fun out => custom_openapi app_routes get_openapi (snd out))
            (Ok r, w1)
          = (Ok r, w1))
    /\ (forall w2 : World,
          heap w2 = heap w1 -> app_openapi_schema w2 = r ->
          custom_openapi app_routes get_openapi w2 = (Ok r, w2)).
Proof.
  intros Route app_routes get_openapi w w1 r H.
  assert (K : app_openapi_schema w1 = r /\ schema_truthy w1 r = true).
  { destruct (schema_truthy w (app_openapi_schema w)) eqn:T.
    - rewrite (custom_openapi_cached Route app_routes get_openapi w T) in H.
      inversion H. subst. auto.
    - assert (F : first_computation w = true)
        by (unfold first_computation; rewrite T; reflexivity).
      rewrite (custom_openapi_fresh Route app_routes get_openapi w F) in H.
      cbv zeta in H.
      destruct (augment_schema (getenv_base_url w)
                  (get_openapi app_title app_version app_description
                     app_routes)) as [d' [[]|e]] eqn:A; [|discriminate].
      inversion H. subst. simpl. split; [reflexivity|].
      unfold deref. simpl. rewrite nth_error_snoc.
      exact (augment_schema_truthy _ _ _ A). }
  destruct K as [K1 K2].
  assert (Again : forall w2, heap w2 = heap w1 -> app_openapi_schema w2 = r ->
            custom_openapi app_routes get_openapi w2 = (Ok r, w2)).
  { intros w2 Hh Hc.
    rewrite <- Hc. apply custom_openapi_cached.
    rewrite Hc. revert K2. unfold schema_truthy, deref. rewrite Hh. auto. }
  repeat split; auto.
  induction n as [|n IH]; [reflexivity|].
  simpl. rewrite IH. simpl. apply Again; auto.
Qed.

(** C6. For every environment configuration, the generated schema has
    components.securitySchemes.ApiKeyAuth equal to the API-key-in-header
    scheme named X-API-Key with its description, and a top-level security
    list holding the global requirement that references ApiKeyAuth. *)
Theorem schema_declares_api_key_auth :
  forall (Route : Type) (app_routes : list Route)
         (get_openapi : str -> str -> str -> list Route -> dict)
         (w : World),
    openapi_shape
      (get_openapi app_title app_version app_description app_routes) = true ->
    first_computation w = true ->
    exists d : dict,
      returned_schema (custom_openapi app_routes get_openapi w) = Some d
      /\ lookup_path
           [py "components"; py "securitySchemes"; py "ApiKeyAuth"] (VDict d)
         = Some (VDict
                   [ (py "type", VStr (py "apiKey"));
                     (py "in", VStr (py "header"));
                     (py "name", VStr (py "X-API-Key"));
                     (py "description",
                      VStr (py "Provide your API key in the X-API-Key header.")) ])
      /\ dict_get (py "security") d
         = Some (VList [ VDict [ (py "ApiKeyAuth", VList []) ] ]).
Proof.
  intros Route app_routes get_openapi w Sh F.
  destruct (custom_openapi_first Route app_routes get_openapi w Sh F)
    as (d' & _ & Rs & _ & A & G).
  exists d'. repeat split; assumption.
Qed.

(** C10. If PUBLIC_BASE_URL is exactly [https://], or [https://] followed
    only by further ['/'] characters, the first schema computation sets
    servers[0].url to [https:], which is neither the configured value nor
    the placeholder. *)
Theorem servers_url_bare_scheme :
  forall (Route : Type) (app_routes : list Route)
         (get_openapi : str -> str -> str -> list Route -> dict)
         (w : World) (k : nat),
    openapi_shape
      (get_openapi app_title app_version app_description app_routes) = true ->
    first_computation w = true ->
    environ_get (py "PUBLIC_BASE_URL") (environ w)
    = Some (py "https://" ++ repeat slash k) ->
    returned_servers0_url (custom_openapi app_routes get_openapi w)
    = Some (VStr (py "https:"))
    /\ py "https:" <> py "https://" ++ repeat slash k
    /\ py "https:" <> py "https://replace-me.example.com".
Proof.
  intros Route app_routes get_openapi w k Sh F E.
  destruct (custom_openapi_first Route app_routes get_openapi w Sh F)
    as (d' & _ & Rs & U & _).
  split; [|split; discriminate].
  unfold returned_servers0_url. rewrite Rs, U.
  unfold getenv_base_url. rewrite E, server_url_bare_scheme. reflexivity.
Qed.

(** ** The middleware and the health check *)

(** A handler followed by [return response] is the handler. *)
Lemma bind_ret_r (A : Type) (m : M A) (w : World) :
  bind m (fun a => ret a) w = m w.
Proof. unfold bind, ret. destruct (m w) as [[a|e] w']; reflexivity. Qed.

Lemma dispatch_unchanged (Receive R : Type)
    (url_path : Request Receive -> str) (request : Request Receive)
    (call_next : Request Receive -> M R) (w : World) :
  normalize_path (url_path request) = url_path request ->
  dispatch url_path request call_next w = call_next request w.
Proof.
  intros E. unfold dispatch. rewrite E, str_eqb_refl. simpl.
  unfold bind at 1. unfold ret at 1. apply bind_ret_r.
Qed.

Lemma dispatch_rewritten (Receive R : Type)
    (url_path : Request Receive -> str) (request : Request Receive)
    (call_next : Request Receive -> M R) (w : World) :
  normalize_path (url_path request) <> url_path request ->
  dispatch url_path request call_next w =
  call_next
    (mkRequest
       (dict_set (py "path") (VStr (normalize_path (url_path request)))
          (scope request))
       (receive request))
    (mkWorld (environ w) (heap w) (app_openapi_schema w)
       (get_openapi_calls w)
       (log w ++ [py "Normalizing path: " ++ url_path request ++ py " -> "
                    ++ normalize_path (url_path request)])).
Proof.
  intros N. apply str_eqb_neq in N. unfold dispatch. rewrite N. simpl.
  unfold bind at 1. unfold bind at 2. unfold logger_info, ret at 1.
  apply bind_ret_r.
Qed.

(** C9. Path normalisation is total and never fails: for every path the
    substitution ends with a string (no longer than the path), and for every
    request the middleware's own steps, the normalisation among them, raise
    nothing: with a downstream handler that returns, [dispatch] returns. *)
Theorem normalize_path_total :
  forall p : str,
    exists q : str,
      normalize_path p = q /\ length q <= length p
      /\ forall (Receive : Type) (url_path : Request Receive -> str)
                (request : Request Receive) (w : World),
           url_path request = p ->
           exists (request' : Request Receive) (w' : World),
             dispatch url_path request (fun r => ret r) w = (Ok request', w')
             /\ (q = p -> request' = request)
             /\ (q <> p ->
                 dict_get (py "path") (scope request') = Some (VStr q)).
Proof.
  intros p. exists (normalize_path p).
  split; [reflexivity|]. split; [apply normalize_path_length|].
  intros Receive url_path request w <-.
  destruct (str_eqb (normalize_path (url_path request)) (url_path request))
    eqn:E.
  - apply str_eqb_eq in E. eexists. eexists.
    split; [rewrite dispatch_unchanged by exact E; reflexivity|].
    split; [reflexivity|]. intros N. contradiction.
  - apply str_eqb_neq in E. eexists. eexists.
    split; [rewrite dispatch_rewritten by exact E; reflexivity|].
    split; [intros N; contradiction|].
    intros _. simpl. apply dict_get_set_same.
Qed.

(** C7. Every request to GET /healthz gets status 200 and the body
    [{"status": "ok"}], in every world (whatever the environment, the cache
    and the earlier requests), directly and behind the middleware. *)
Theorem healthz_always_ok :
  forall w : World,
    get_healthz w
    = (Ok (mkResponse 200 (VDict [ (py "status", VStr (py "ok")) ])), w)
    /\ forall (Receive : Type) (url_path : Request Receive -> str)
              (request : Request Receive),
         fst (dispatch url_path request (fun _ => get_healthz) w)
         = Ok (mkResponse 200 (VDict [ (py "status", VStr (py "ok")) ])).
Proof.
  intros w. split; [reflexivity|].
  intros Receive url_path request.
  destruct (str_eqb (normalize_path (url_path request)) (url_path request))
    eqn:E.
  - apply str_eqb_eq in E. rewrite dispatch_unchanged by exact E.
    reflexivity.
  - apply str_eqb_neq in E. rewrite dispatch_rewritten by exact E.
    reflexivity.
Qed.

(** C8. The middleware returns what the downstream handler returns,
    unmodified.  When the normalised path equals the path it forwards the
    request it was given; when it differs it forwards a request with the
    same [receive] whose scope has the normalised path under [path] and is
    the same at every other key, and the only other effect is one log
    record. *)
Theorem dispatch_forwards :
  forall (Receive R : Type) (url_path : Request Receive -> str)
         (request : Request Receive) (call_next : Request Receive -> M R)
         (w : World),
    let path := url_path request in
    let normalized_path := normalize_path path in
    (normalized_path = path ->
     dispatch url_path request call_next w = call_next request w)
    /\ (normalized_path <> path ->
        exists (request' : Request Receive) (msg : str),
          dispatch url_path request call_next w
          = call_next request'
              (mkWorld (environ w) (heap w) (app_openapi_schema w)
                 (get_openapi_calls w) (log w ++ [msg]))
          /\ receive request' = receive request
          /\ dict_get (py "path") (scope request')
             = Some (VStr normalized_path)
          /\ forall k : str,
               k <> py "path" ->
               dict_get k (scope request') = dict_get k (scope request)).
Proof.
  intros Receive R url_path request call_next w path normalized_path.
  split.
  - apply dispatch_unchanged.
  - intros N. eexists. eexists.
    split; [apply dispatch_rewritten; exact N|].
    simpl. split; [reflexivity|]. split; [apply dict_get_set_same|].
    intros k Hk. apply dict_get_set_other. apply str_eqb_neq. exact Hk.
Qed.

(** ** The program on concrete inputs *)

Example normalize_path_products :
  normalize_path (py "//products///123") = py "/products/123".
Proof. reflexivity. Qed.

Example normalize_path_only_slashes : normalize_path (py "////") = py "/".
Proof. reflexivity. Qed.

Example strip_then_rstrip :
  rstrip (py "/") (strip (py "  https://api.example.com// "))
  = py "https://api.example.com".
Proof. reflexivity. Qed.

Example dispatch_healthz_double_slash :
  fst (dispatch sample_url_path (sample_request (py "//healthz"))
         (fun request => ret (sample_url_path request)) (start_world []))
  = Ok (py "/healthz").
Proof. reflexivity. Qed.

(** C3 at [https://api.example.com/]. *)
Lemma servers_url_https_trimmed_witness :
  returned_servers0_url
    (custom_openapi [] sample_get_openapi
       (start_world (env_base_url (py "https://api.example.com/"))))
  = Some (VStr (py "https://api.example.com")).
Proof.
  apply (proj2 (servers_url_https_trimmed unit [] sample_get_openapi
                  (start_world (env_base_url (py "https://api.example.com/")))
                  (py "https://api.example.com/")
                  eq_refl eq_refl eq_refl eq_refl eq_refl)).
  reflexivity.
Defined.

(** C3 as first stated fails when whitespace follows the URL: the raw value
    [https://api.example.com/ ] is non-empty and starts with [https://], and
    stripping its trailing slashes changes nothing since it ends with a
    space; the builder removes the space first and yields
    [https://api.example.com]. *)
Lemma servers_url_raw_value_counterexample :
  let v := py "https://api.example.com/ " in
  let w := start_world (env_base_url v) in
  first_computation w = true
  /\ environ_get (py "PUBLIC_BASE_URL") (environ w) = Some v
  /\ str_truthy v = true
  /\ startswith (py "https://") v = true
  /\ returned_servers0_url (custom_openapi [] sample_get_openapi w)
     = Some (VStr (py "https://api.example.com"))
  /\ returned_servers0_url (custom_openapi [] sample_get_openapi w)
     <> Some (VStr (rstrip (py "/") v)).
Proof.
  cbv zeta. repeat split; try reflexivity.
  vm_compute. discriminate.
Qed.

(** C4 at [http://insecure.example.com]. *)
Lemma servers_url_placeholder_witness :
  exists (r : ref) (w' : World) (d : dict),
    custom_openapi [] sample_get_openapi
      (start_world (env_base_url (py "http://insecure.example.com")))
    = (Ok (Some r), w')
    /\ deref w' r = Some d
    /\ servers0_url d = Some (VStr (py "https://replace-me.example.com")).
Proof.
  apply (servers_url_placeholder unit [] sample_get_openapi
           (start_world (env_base_url (py "http://insecure.example.com")))
           eq_refl eq_refl).
  right. exists (py "http://insecure.example.com").
  split; [reflexivity|]. right. reflexivity.
Defined.

(** C4 as first stated fails when whitespace precedes the URL: the raw value
    [ https://api.example.com] does not start with [https://], yet the
    builder removes the space first and declares the configured server, not
    the placeholder. *)
Lemma servers_url_leading_space_counterexample :
  let v := py " https://api.example.com" in
  let w := start_world (env_base_url v) in
  first_computation w = true
  /\ environ_get (py "PUBLIC_BASE_URL") (environ w) = Some v
  /\ startswith (py "https://") v = false
  /\ returned_servers0_url (custom_openapi [] sample_get_openapi w)
     = Some (VStr (py "https://api.example.com"))
  /\ returned_servers0_url (custom_openapi [] sample_get_openapi w)
     <> Some (VStr (py "https://replace-me.example.com")).
Proof.
  cbv zeta. repeat split; try reflexivity.
  vm_compute. discriminate.
Qed.

(** C5 from a process at start: the second call returns what the first
    returned and leaves the world of the first. *)
Lemma custom_openapi_memoized_witness :
  let w := start_world (env_base_url (py "https://api.example.com/")) in
  let out := custom_openapi [] sample_get_openapi w in
  fst out = Ok (Some 0)
  /\ custom_openapi [] sample_get_openapi (snd out) = out.
Proof.
  cbv zeta. split; [reflexivity|].
  apply (proj2 (proj2 (proj2
    (custom_openapi_memoized unit [] sample_get_openapi
       (start_world (env_base_url (py "https://api.example.com/")))
       (snd (custom_openapi [] sample_get_openapi
               (start_world (env_base_url (py "https://api.example.com/")))))
       (Some 0) eq_refl))));
    reflexivity.
Defined.

(** C6 with no environment at all. *)
Lemma schema_declares_api_key_auth_witness :
  exists d : dict,
    returned_schema (custom_openapi [] sample_get_openapi (start_world []))
    = Some d
    /\ lookup_path
         [py "components"; py "securitySchemes"; py "ApiKeyAuth"] (VDict d)
       = Some (VDict
                 [ (py "type", VStr (py "apiKey"));
                   (py "in", VStr (py "header"));
                   (py "name", VStr (py "X-API-Key"));
                   (py "description",
                    VStr (py "Provide your API key in the X-API-Key header.")) ])
    /\ dict_get (py "security") d
       = Some (VList [ VDict [ (py "ApiKeyAuth", VList []) ] ]).
Proof.
  exact (schema_declares_api_key_auth unit [] sample_get_openapi
           (start_world []) eq_refl eq_refl).
Defined.

(** C10 at the bare scheme and at the scheme with two more slashes. *)
Lemma servers_url_bare_scheme_witness :
  returned_servers0_url
    (custom_openapi [] sample_get_openapi
       (start_world (env_base_url (py "https://"))))
  = Some (VStr (py "https:"))
  /\ returned_servers0_url
       (custom_openapi [] sample_get_openapi
          (start_world (env_base_url (py "https:////"))))
     = Some (VStr (py "https:")).
Proof.
  split.
  - exact (proj1 (servers_url_bare_scheme unit [] sample_get_openapi
                    (start_world (env_base_url (py "https://"))) 0
                    eq_refl eq_refl eq_refl)).
  - exact (proj1 (servers_url_bare_scheme unit [] sample_get_openapi
                    (start_world (env_base_url (py "https:////"))) 2
                    eq_refl eq_refl eq_refl)).
Defined.

(** * Further properties of the path substitution *)

Lemma lstrip_by_app_stop p u x v :
  p x = false -> lstrip_by p (u ++ x :: v) = lstrip_by p u ++ x :: v.
Proof.
  intros H. induction u as [|c u IH]; simpl.
  - rewrite H. reflexivity.
  - destruct (p c); [exact IH | reflexivity].
Qed.

Lemma filter_lstrip_by p s :
  filter (fun c => negb (p c)) (lstrip_by p s)
  = filter (fun c => negb (p c)) s.
Proof.
  induction s as [|c s IH]; simpl; [reflexivity|].
  destruct (p c) eqn:E; simpl; [exact IH|].
  rewrite E. reflexivity.
Qed.


Lemma drop_followed_slashes_other x t :
  char_eqb x slash = false ->
  drop_followed_slashes (x :: t) = x :: drop_followed_slashes t.
Proof.
  intros H. simpl. destruct t as [|y t']; [reflexivity|].
  rewrite H. reflexivity.
Qed.

Lemma drop_followed_slashes_slash t :
  drop_followed_slashes (slash :: t)
  = slash :: drop_followed_slashes (lstrip_by (fun y => char_eqb y slash) t).
Proof.
  induction t as [|y t IH]; [reflexivity|].
  destruct (char_eqb y slash) eqn:E.
  - assert (y = slash) by (apply char_eqb_eq; exact E). subst y.
    change (drop_followed_slashes (slash :: slash :: t))
      with (drop_followed_slashes (slash :: t)).
    rewrite IH. simpl lstrip_by. reflexivity.
  - simpl lstrip_by. rewrite E.
    change (drop_followed_slashes (slash :: y :: t))
      with (if char_eqb slash slash && char_eqb y slash
            then drop_followed_slashes (y :: t)
            else slash :: drop_followed_slashes (y :: t)).
    rewrite E, andb_false_r. reflexivity.
Qed.

(** The scan of [re.sub] and the single pass give the same string. *)
Lemma normalize_path_drop p : normalize_path p = drop_followed_slashes p.
Proof.
  induction p as [p IH] using str_length_ind.
  destruct p as [|x t]; [reflexivity|].
  destruct (char_eqb x slash) eqn:E.
  - apply char_eqb_eq in E. subst x.
    rewrite normalize_path_slash, drop_followed_slashes_slash.
    rewrite IH; [reflexivity|].
    pose proof (length_lstrip_by (fun y => char_eqb y slash) t).
    simpl. lia.
  - rewrite (normalize_path_other _ _ E),
      (drop_followed_slashes_other _ _ E).
    rewrite IH; [reflexivity | simpl; lia].
Qed.

Lemma drop_followed_slashes_nil s : drop_followed_slashes s = [] -> s = [].
Proof.
  induction s as [|x t IH]; [reflexivity|].
  simpl. destruct t as [|y t']; [discriminate|].
  destruct (char_eqb x slash && char_eqb y slash); [|discriminate].
  intros H. apply IH in H. discriminate.
Qed.

Lemma drop_followed_slashes_last s d :
  last (drop_followed_slashes s) d = last s d.
Proof.
  induction s as [|x t IH]; [reflexivity|].
  destruct t as [|y t']; [reflexivity|].
  change (drop_followed_slashes (x :: y :: t'))
    with (if char_eqb x slash && char_eqb y slash
          then drop_followed_slashes (y :: t')
          else x :: drop_followed_slashes (y :: t')).
  change (last (x :: y :: t') d) with (last (y :: t') d).
  destruct (char_eqb x slash && char_eqb y slash); [exact IH|].
  destruct (drop_followed_slashes (y :: t')) as [|z r] eqn:D.
  - apply drop_followed_slashes_nil in D. discriminate.
  - change (last (x :: z :: r) d) with (last (z :: r) d). exact IH.
Qed.


(** X2. The substitution only removes ['/'] characters: the characters other
    than ['/'] of the normalised path are those of the path, in the same
    order. *)
Theorem normalize_path_keeps_other_chars :
  forall p : str,
    filter not_slash (normalize_path p) = filter not_slash p.
Proof.
  intros p. induction p as [p IH] using str_length_ind.
  destruct p as [|x t]; [reflexivity|].
  destruct (char_eqb x slash) eqn:E.
  - apply char_eqb_eq in E. subst x. rewrite normalize_path_slash.
    simpl. rewrite IH.
    + apply (filter_lstrip_by (fun y => char_eqb y slash)).
    + pose proof (length_lstrip_by (fun y => char_eqb y slash) t).
      simpl. lia.
  - rewrite (normalize_path_other _ _ E). simpl.
    assert (N : not_slash x = true) by (unfold not_slash; rewrite E; reflexivity).
    rewrite N, IH; [reflexivity | simpl; lia].
Qed.

(** X3. The substitution works on each side of a character other than ['/']
    on its own: normalising [a ++ x :: b] gives the normalised [a], then
    [x], then the normalised [b]. *)
Theorem normalize_path_app_other :
  forall (a b : str) (x : char),
    char_eqb x slash = false ->
    normalize_path (a ++ x :: b)
    = normalize_path a ++ x :: normalize_path b.
Proof.
  intros a b x Hx. induction a as [a IH] using str_length_ind.
  destruct a as [|c a'].
  - simpl app. rewrite (normalize_path_other _ _ Hx), normalize_path_nil.
    reflexivity.
  - simpl app. destruct (char_eqb c slash) eqn:E.
    + apply char_eqb_eq in E. subst c.
      rewrite !normalize_path_slash.
      rewrite (lstrip_by_app_stop (fun y => char_eqb y slash) a' x b Hx).
      rewrite IH; [reflexivity|].
      pose proof (length_lstrip_by (fun y => char_eqb y slash) a').
      simpl. lia.
    + rewrite !(normalize_path_other _ _ E).
      rewrite IH; [reflexivity | simpl; lia].
Qed.

Lemma normalize_path_app_other_witness :
  normalize_path (py "//a//" ++ 98%N :: py "///c")
  = normalize_path (py "//a//") ++ 98%N :: normalize_path (py "///c").
Proof.
  apply (normalize_path_app_other (py "//a//") (py "///c") 98%N).
  reflexivity.
Defined.

(** X4. The substitution keeps the ends of a path: the normalised path
    starts with the character the path starts with and ends with the
    character it ends with, so a leading or trailing ['/'] stays and none
    is added. *)
Theorem normalize_path_keeps_ends :
  forall (p : str) (d : char),
    hd_error (normalize_path p) = hd_error p
    /\ last (normalize_path p) d = last p d.
Proof.
  intros p d. split.
  - destruct p as [|x t]; [reflexivity|].
    destruct (char_eqb x slash) eqn:E.
    + apply char_eqb_eq in E. subst x. rewrite normalize_path_slash.
      reflexivity.
    + rewrite (normalize_path_other _ _ E). reflexivity.
  - rewrite normalize_path_drop. apply drop_followed_slashes_last.
Qed.

(** * Further properties of the middleware *)








(** * Further properties of the schema builder *)

Lemma rstrip_by_app_stop p a x b :
  p x = false -> rstrip_by p (a ++ x :: b) = a ++ x :: rstrip_by p b.
Proof.
  intros H. unfold rstrip_by.
  rewrite rev_app_distr. simpl rev. rewrite <- app_assoc. simpl app.
  rewrite (lstrip_by_app_stop p (rev b) x (rev a) H).
  rewrite rev_app_distr. simpl rev. rewrite rev_involutive.
  rewrite <- app_assoc. reflexivity.
Qed.

(** What is left after [rstrip] ends with a character outside the set. *)
Lemma rstrip_by_last p s t x : rstrip_by p s = t ++ [x] -> p x = false.
Proof.
  unfold rstrip_by. intros H.
  apply (f_equal (@rev char)) in H.
  rewrite rev_involutive, rev_app_distr in H. simpl in H.
  exact (lstrip_by_head p (rev s) x (rev t) H).
Qed.

Lemma lstrip_by_all p s : forallb p s = true -> lstrip_by p s = [].
Proof.
  induction s as [|c s IH]; simpl; [reflexivity|].
  intros H. apply andb_true_iff in H. destruct H as [H1 H2].
  rewrite H1. exact (IH H2).
Qed.

Lemma startswith_app prefix s :
  startswith prefix s = true -> exists rest, s = prefix ++ rest.
Proof.
  revert s. induction prefix as [|x p IH]; intros s H.
  - exists s. reflexivity.
  - destruct s as [|y s]; [discriminate|].
    simpl in H. apply andb_true_iff in H. destruct H as [H1 H2].
    apply char_eqb_eq in H1. subst y.
    destruct (IH s H2) as (rest & ->). exists rest. reflexivity.
Qed.

Lemma server_url_no_trailing_slash v t : server_url v <> t ++ [slash].
Proof.
  unfold server_url. cbv zeta.
  destruct (str_truthy (strip v) && startswith (py "https://") (strip v)).
  - intros H. apply rstrip_by_last in H. discriminate.
  - intros H. apply (f_equal (fun l => last l 0%N)) in H.
    rewrite last_last in H. discriminate.
Qed.

Lemma server_url_scheme v : startswith (py "https:") (server_url v) = true.
Proof.
  unfold server_url. cbv zeta.
  destruct (str_truthy (strip v) && startswith (py "https://") (strip v))
    eqn:E; [|reflexivity].
  apply andb_true_iff in E. destruct E as [_ E].
  destruct (startswith_app _ _ E) as (rest & ->).
  unfold rstrip.
  change (py "https://" ++ rest)
    with (py "https" ++ 58%N :: (py "//" ++ rest)).
  rewrite rstrip_by_app_stop by reflexivity. reflexivity.
Qed.

Lemma server_url_blank v :
  forallb is_space v = true -> server_url v = placeholder_url.
Proof.
  intros H. apply server_url_fallback. left.
  unfold strip. rewrite (lstrip_by_all is_space v H). reflexivity.
Qed.

(** The [servers] entry after lines 70-77, whatever follows. *)
Lemma augment_schema_servers_entry v d :
  dict_get (py "servers") (fst (augment_schema v d))
  = Some (servers_of (server_url v)).
Proof.
  unfold augment_schema. rewrite augment_schema_servers.
  unfold dict_setdefault.
  rewrite (dict_get_set_other (py "servers") (py "components"))
    by reflexivity.
  destruct (dict_get (py "components") d) as [[| | | | |c]|];
    simpl; dict_simpl; try reflexivity.
  destruct (dict_get (py "securitySchemes") c) as [[| | | | |s]|];
    simpl; dict_simpl; reflexivity.
Qed.

(** Keys other than the three that lines 70-89 assign keep their values. *)
Lemma augment_schema_other_keys v d k :
  k <> py "servers" -> k <> py "components" -> k <> py "security" ->
  dict_get k (fst (augment_schema v d)) = dict_get k d.
Proof.
  intros N1 N2 N3. apply str_eqb_neq in N1, N2, N3.
  unfold augment_schema. rewrite augment_schema_servers.
  unfold dict_setdefault.
  rewrite (dict_get_set_other (py "servers") (py "components"))
    by reflexivity.
  destruct (dict_get (py "components") d) as [[| | | | |c]|];
    simpl; try (rewrite dict_get_set_other by exact N1; reflexivity).
  - destruct (dict_get (py "securitySchemes") c) as [[| | | | |s]|];
      simpl;
      repeat (rewrite dict_get_set_other by assumption); reflexivity.
  - repeat (rewrite dict_get_set_other by assumption). reflexivity.
Qed.

(** Entries of [components] other than [securitySchemes], and schemes other
    than [ApiKeyAuth], keep their values. *)
Lemma augment_schema_components_kept v d c k :
  openapi_shape d = true ->
  dict_get (py "components") d = Some (VDict c) ->
  k <> py "securitySchemes" ->
  lookup_path [py "components"; k] (VDict (fst (augment_schema v d)))
  = dict_get k c.
Proof.
  intros Sh Hc N. apply str_eqb_neq in N.
  unfold openapi_shape in Sh. rewrite Hc in Sh.
  unfold augment_schema. rewrite augment_schema_servers.
  unfold dict_setdefault, lookup_path.
  rewrite (dict_get_set_other (py "servers") (py "components"))
    by reflexivity.
  rewrite Hc.
  destruct (dict_get (py "securitySchemes") c) as [[| | | | |s]|];
    try discriminate; simpl; dict_simpl;
    repeat (rewrite dict_get_set_other by exact N);
    destruct (dict_get k c); reflexivity.
Qed.

Lemma augment_schema_schemes_kept v d c s k :
  dict_get (py "components") d = Some (VDict c) ->
  dict_get (py "securitySchemes") c = Some (VDict s) ->
  k <> py "ApiKeyAuth" ->
  lookup_path [py "components"; py "securitySchemes"; k]
    (VDict (fst (augment_schema v d)))
  = dict_get k s.
Proof.
  intros Hc Hs N. apply str_eqb_neq in N.
  unfold augment_schema. rewrite augment_schema_servers.
  unfold dict_setdefault, lookup_path.
  rewrite (dict_get_set_other (py "servers") (py "components"))
    by reflexivity.
  rewrite Hc, Hs. simpl. dict_simpl.
  rewrite dict_get_set_other by exact N.
  destruct (dict_get k s); reflexivity.
Qed.

(** The exception of lines 70-89 on a document outside the shape. *)
Lemma augment_schema_raises v d :
  openapi_shape d = false ->
  snd (augment_schema v d)
  = Raise match dict_get (py "components") d with
          | Some (VDict _) => TypeError
          | _ => AttributeError
          end.
Proof.
  unfold openapi_shape, augment_schema. rewrite augment_schema_servers.
  unfold dict_setdefault.
  rewrite (dict_get_set_other (py "servers") (py "components"))
    by reflexivity.
  destruct (dict_get (py "components") d) as [[| | | | |c]|];
    simpl; try discriminate; try reflexivity.
  destruct (dict_get (py "securitySchemes") c) as [[| | | | |s]|];
    simpl; try discriminate; reflexivity.
Qed.

Section SchemaBuilderMore.

Variable Route : Type.
Variable app_routes : list Route.
Variable get_openapi : str -> str -> str -> list Route -> dict.

(** The document the first computation returns is the framework's document
    after lines 70-89. *)
Lemma custom_openapi_first_schema w :
  openapi_shape
    (get_openapi app_title app_version app_description app_routes) = true ->
  first_computation w = true ->
  returned_schema (custom_openapi app_routes get_openapi w)
  = Some (fst (augment_schema (getenv_base_url w)
                 (get_openapi app_title app_version app_description
                    app_routes))).
Proof.
  intros Sh F.
  rewrite (custom_openapi_fresh Route app_routes get_openapi w F).
  cbv zeta.
  pose proof (proj2 (augment_schema_returns_iff (getenv_base_url w) _) Sh)
    as A.
  destruct (augment_schema (getenv_base_url w)
              (get_openapi app_title app_version app_description app_routes))
    as [d' [[]|e]]; simpl in A; [|discriminate].
  unfold returned_schema, deref. simpl. apply nth_error_snoc.
Qed.

End SchemaBuilderMore.

(** X7. The first computation keeps what [get_openapi] built: every
    top-level entry other than [servers], [components] and [security],
    every entry of [components] other than [securitySchemes], and every
    security scheme other than [ApiKeyAuth] has the value it had. *)
Theorem custom_openapi_keeps_document :
  forall (Route : Type) (app_routes : list Route)
         (get_openapi : str -> str -> str -> list Route -> dict)
         (w : World),
    openapi_shape
      (get_openapi app_title app_version app_description app_routes) = true ->
    first_computation w = true ->
    exists d : dict,
      returned_schema (custom_openapi app_routes get_openapi w) = Some d
      /\ (forall k : str,
            k <> py "servers" -> k <> py "components" ->
            k <> py "security" ->
            dict_get k d
            = dict_get k
                (get_openapi app_title app_version app_description
                   app_routes))
      /\ (forall (c : dict) (k : str),
            dict_get (py "components")
              (get_openapi app_title app_version app_description app_routes)
            = Some (VDict c) ->
            k <> py "securitySchemes" ->
            lookup_path [py "components"; k] (VDict d) = dict_get k c)
      /\ (forall (c s : dict) (k : str),
            dict_get (py "components")
              (get_openapi app_title app_version app_description app_routes)
            = Some (VDict c) ->
            dict_get (py "securitySchemes") c = Some (VDict s) ->
            k <> py "ApiKeyAuth" ->
            lookup_path [py "components"; py "securitySchemes"; k] (VDict d)
            = dict_get k s).
Proof.
  intros Route app_routes get_openapi w Sh F.
  eexists. split; [apply custom_openapi_first_schema; assumption|].
  split; [|split].
  - intros k N1 N2 N3. apply augment_schema_other_keys; assumption.
  - intros c k Hc N. apply augment_schema_components_kept; assumption.
  - intros c s k Hc Hs N.
    apply (augment_schema_schemes_kept _ _ c s k); assumption.
Qed.

Lemma custom_openapi_keeps_document_witness :
  exists d : dict,
    returned_schema
      (custom_openapi [] sample_get_openapi_components (start_world []))
    = Some d
    /\ dict_get (py "paths") d
       = Some (VDict [ (py "/products", VDict []) ])
    /\ lookup_path [py "components"; py "schemas"] (VDict d)
       = Some (VDict [ (py "Product", VDict []) ])
    /\ lookup_path [py "components"; py "securitySchemes"; py "OAuth2"]
         (VDict d)
       = Some (VDict [ (py "type", VStr (py "oauth2")) ]).
Proof.
  destruct (custom_openapi_keeps_document unit []
              sample_get_openapi_components (start_world [])
              eq_refl eq_refl) as (d & Rs & K1 & K2 & K3).
  exists d. split; [exact Rs|]. split; [|split].
  - rewrite (K1 (py "paths")); [reflexivity | | |]; discriminate.
  - rewrite (K2 _ (py "schemas") eq_refl); [reflexivity | discriminate].
  - rewrite (K3 _ _ (py "OAuth2") eq_refl eq_refl);
      [reflexivity | discriminate].
Defined.

(** X8. When the document [get_openapi] returned has a [components] entry
    that is not a dict, or a [securitySchemes] entry in it that is not a
    dict, the first computation raises (AttributeError in the first case,
    TypeError in the second) and caches nothing: [app.openapi_schema], the
    environment and the log are as before, and [get_openapi] has been called
    once. *)
Theorem custom_openapi_failure_not_cached :
  forall (Route : Type) (app_routes : list Route)
         (get_openapi : str -> str -> str -> list Route -> dict)
         (w : World),
    openapi_shape
      (get_openapi app_title app_version app_description app_routes) = false ->
    first_computation w = true ->
    exists (e : exn) (d' : dict),
      custom_openapi app_routes get_openapi w
      = (Raise e,
         mkWorld (environ w) (heap w ++ [d']) (app_openapi_schema w)
           (S (get_openapi_calls w)) (log w))
      /\ e = match dict_get (py "components")
                     (get_openapi app_title app_version app_description
                        app_routes) with
             | Some (VDict _) => TypeError
             | _ => AttributeError
             end.
Proof.
  intros Route app_routes get_openapi w Sh F.
  rewrite (custom_openapi_fresh Route app_routes get_openapi w F).
  cbv zeta.
  pose proof (augment_schema_raises (getenv_base_url w) _ Sh) as A.
  destruct (augment_schema (getenv_base_url w)
              (get_openapi app_title app_version app_description app_routes))
    as [d' [u|e]]; simpl in A; [discriminate|].
  exists e, d'. split; [reflexivity|]. congruence.
Qed.

Lemma custom_openapi_failure_not_cached_witness :
  (exists d' : dict,
     custom_openapi [] sample_get_openapi_bad_components (start_world [])
     = (Raise AttributeError, mkWorld [] [d'] None 1 []))
  /\ (exists d' : dict,
        custom_openapi [] sample_get_openapi_bad_schemes (start_world [])
        = (Raise TypeError, mkWorld [] [d'] None 1 [])).
Proof.
  split.
  - destruct (custom_openapi_failure_not_cached unit []
                sample_get_openapi_bad_components (start_world [])
                eq_refl eq_refl) as (e & d' & C & E).
    exists d'. rewrite C, E. reflexivity.
  - destruct (custom_openapi_failure_not_cached unit []
                sample_get_openapi_bad_schemes (start_world [])
                eq_refl eq_refl) as (e & d' & C & E).
    exists d'. rewrite C, E. reflexivity.
Defined.

(** X9. The cache test is a truth test: when [app.openapi_schema] refers to
    an empty dict, the builder does not return it but builds the document in
    a new object, caches that one, and leaves the empty dict as it is. *)
Theorem custom_openapi_empty_cache_rebuilt :
  forall (Route : Type) (app_routes : list Route)
         (get_openapi : str -> str -> str -> list Route -> dict)
         (w : World) (r : ref),
    openapi_shape
      (get_openapi app_title app_version app_description app_routes) = true ->
    app_openapi_schema w = Some r ->
    deref w r = Some [] ->
    exists (r' : ref) (w' : World) (d' : dict),
      custom_openapi app_routes get_openapi w = (Ok (Some r'), w')
      /\ r' <> r
      /\ app_openapi_schema w' = Some r'
      /\ deref w' r' = Some d' /\ dict_truthy d' = true
      /\ deref w' r = Some []
      /\ get_openapi_calls w' = S (get_openapi_calls w).
Proof.
  intros Route app_routes get_openapi w r Sh Hc Hr.
  assert (F : first_computation w = true).
  { unfold first_computation, schema_truthy. rewrite Hc, Hr. reflexivity. }
  destruct (custom_openapi_first Route app_routes get_openapi w Sh F)
    as (d' & C & _ & _ & _ & G).
  assert (Lt : r < length (heap w)).
  { apply nth_error_Some. unfold deref in Hr. rewrite Hr. discriminate. }
  exists (length (heap w)). eexists. exists d'.
  split; [exact C|]. simpl. unfold deref. simpl.
  split; [lia|]. split; [reflexivity|].
  split; [apply nth_error_snoc|].
  split; [destruct d'; [discriminate | reflexivity]|].
  split; [|reflexivity].
  rewrite nth_error_app1 by exact Lt. exact Hr.
Qed.

Lemma custom_openapi_empty_cache_rebuilt_witness :
  exists (r' : ref) (w' : World) (d' : dict),
    custom_openapi [] sample_get_openapi (mkWorld [] [[]] (Some 0) 0 [])
    = (Ok (Some r'), w')
    /\ r' <> 0
    /\ app_openapi_schema w' = Some r'
    /\ deref w' r' = Some d' /\ dict_truthy d' = true
    /\ deref w' 0 = Some []
    /\ get_openapi_calls w' = 1.
Proof.
  exact (custom_openapi_empty_cache_rebuilt unit [] sample_get_openapi
           (mkWorld [] [[]] (Some 0) 0 []) 0 eq_refl eq_refl eq_refl).
Defined.

(** X10. Whatever PUBLIC_BASE_URL holds, the generated schema declares
    exactly one server, a dict with the single key [url], and this replaces
    any [servers] entry of the framework's document; the URL never ends with
    ['/'] and always starts with [https:]. *)
Theorem servers_single_https_entry :
  forall (Route : Type) (app_routes : list Route)
         (get_openapi : str -> str -> str -> list Route -> dict)
         (w : World),
    openapi_shape
      (get_openapi app_title app_version app_description app_routes) = true ->
    first_computation w = true ->
    exists (d : dict) (u : str),
      returned_schema (custom_openapi app_routes get_openapi w) = Some d
      /\ dict_get (py "servers") d
         = Some (VList [ VDict [ (py "url", VStr u) ] ])
      /\ (forall t : str, u <> t ++ [slash])
      /\ startswith (py "https:") u = true.
Proof.
  intros Route app_routes get_openapi w Sh F.
  eexists. exists (server_url (getenv_base_url w)).
  split; [apply custom_openapi_first_schema; assumption|].
  split; [apply augment_schema_servers_entry|].
  split; [apply server_url_no_trailing_slash | apply server_url_scheme].
Qed.

Lemma servers_single_https_entry_witness :
  exists (d : dict) (u : str),
    returned_schema
      (custom_openapi [] sample_get_openapi
         (start_world (env_base_url (py "https://api.example.com///"))))
    = Some d
    /\ dict_get (py "servers") d
       = Some (VList [ VDict [ (py "url", VStr u) ] ])
    /\ (forall t : str, u <> t ++ [slash])
    /\ startswith (py "https:") u = true.
Proof.
  exact (servers_single_https_entry unit [] sample_get_openapi
           (start_world (env_base_url (py "https://api.example.com///")))
           eq_refl eq_refl).
Defined.

(** X11. A PUBLIC_BASE_URL made of whitespace only counts as unset: the
    first computation declares the placeholder server. *)
Theorem servers_url_blank_value :
  forall (Route : Type) (app_routes : list Route)
         (get_openapi : str -> str -> str -> list Route -> dict)
         (w : World) (v : str),
    openapi_shape
      (get_openapi app_title app_version app_description app_routes) = true ->
    first_computation w = true ->
    environ_get (py "PUBLIC_BASE_URL") (environ w) = Some v ->
    forallb is_space v = true ->
    returned_servers0_url (custom_openapi app_routes get_openapi w)
    = Some (VStr (py "https://replace-me.example.com")).
Proof.
  intros Route app_routes get_openapi w v Sh F E B.
  unfold returned_servers0_url.
  rewrite (custom_openapi_first_schema Route app_routes get_openapi w Sh F).
  unfold servers0_url. rewrite augment_schema_servers_entry.
  unfold getenv_base_url. rewrite E, (server_url_blank v B). reflexivity.
Qed.

Lemma servers_url_blank_value_witness :
  returned_servers0_url
    (custom_openapi [] sample_get_openapi
       (start_world (env_base_url [32%N; 9%N; 10%N; 160%N])))
  = Some (VStr (py "https://replace-me.example.com")).
Proof.
  exact (servers_url_blank_value unit [] sample_get_openapi
           (start_world (env_base_url [32%N; 9%N; 10%N; 160%N]))
           [32%N; 9%N; 10%N; 160%N] eq_refl eq_refl eq_refl eq_refl).
Defined.
